(** * cloud-carbon-footprint: the carbon comparison card and the API router

    A shallow embedding of the two fragments of
    [client/src/dashboard/CarbonComparisonCard.tsx]:

    - the [CarbonComparisonCard] component, whose numbers are IEEE 754
      binary64 values (JavaScript's [number]), modelled with Rocq's primitive
      floats, so that [*] below is the very multiplication the script runs;
    - the express router ([FootprintApiMiddleware], [EmissionsApiMiddleware],
      [RecommendationsApiMiddleware], [createRouter]), modelled in a small
      state-and-exception monad over the request's observable effects. *)

From Stdlib Require Import PrimFloat.
From stdpp Require Import gmap strings list fin_maps.

Set Warnings "-inexact-float,-register-all".

(** ** The comparison card *)

Module Card.

Local Open Scope float_scope.

(** [type Selection = 'miles' | 'gas' | 'trees'] *)
Inductive Selection := miles | gas | trees.

(** The icons of [@material-ui/icons] the card renders, each with its
    [data-testid]. *)
Inductive Icon := LocalGasStation | DriveEta | Eco.

Definition testid (i : Icon) : string :=
  match i with
  | LocalGasStation => "gasIcon"
  | DriveEta => "milesIcon"
  | Eco => "treesIcon"
  end.

(** [type ComparisionItem] *)
Record ComparisionItem := {
  icon : Icon;
  total : float;
  textOne : string;
  textTwo : string;
}.

(** [type Comparision]: the three entries the card builds; [lookup] is
    [comparisons[selection]]. *)
Record Comparision := {
  c_gas : ComparisionItem;
  c_miles : ComparisionItem;
  c_trees : ComparisionItem;
}.

Definition lookup (c : Comparision) (s : Selection) : ComparisionItem :=
  match s with
  | gas => c_gas c
  | miles => c_miles c
  | trees => c_trees c
  end.

(** [updateButtonColor] *)
Inductive Color := primary | default.

Definition Selection_eqb (a b : Selection) : bool :=
  match a, b with
  | miles, miles | gas, gas | trees, trees => true
  | _, _ => false
  end.

Definition updateButtonColor (selection buttonSelection : Selection) : Color :=
  if Selection_eqb buttonSelection selection then primary else default.

(** What one render of the card computes: the sum, the three products, the
    table of comparisons and the entry shown for the current selection. *)
Record Rendered := {
  kgSum : float;
  milesSum : float;
  gasSum : float;
  treesSum : float;
  comparisons : Comparision;
  shown : ComparisionItem;
  buttons : Color * Color * Color;
}.

Section WithSum.

(** [EstimationResult] comes from [../types] and [sumCO2] from
    [./transformData]; the component only applies the one to a list of
    the other. *)
Context {EstimationResult : Type}.
Variable sumCO2 : list EstimationResult -> float.

Definition render (selection : Selection) (data : list EstimationResult)
  : Rendered :=
  let kgSum := sumCO2 data in
  let milesSum := kgSum * 2.48138958 in
  let gasSum := kgSum * 0.1125239 in
  let treesSum := kgSum * 0.0165352 in
  let comparisons :=
    {| c_gas := {| icon := LocalGasStation;
                   total := gasSum;
                   textOne := "CO2 emissions from";
                   textTwo := "gallons of gasoline consumed" |};
       c_miles := {| icon := DriveEta;
                     total := milesSum;
                     textOne := "greenhouse gas emissions from";
                     textTwo := "miles driven by an average passenger vehicle" |};
       c_trees := {| icon := Eco;
                     total := treesSum;
                     textOne := "carbon sequestered by";
                     textTwo := "tree seedlings grown for 10 years" |} |} in
  {| kgSum := kgSum;
     milesSum := milesSum;
     gasSum := gasSum;
     treesSum := treesSum;
     comparisons := comparisons;
     shown := lookup comparisons selection;
     buttons := (updateButtonColor selection miles,
                 updateButtonColor selection gas,
                 updateButtonColor selection trees) |}.

(** [useState('miles')]: the first render. *)
Definition CarbonComparisonCard (data : list EstimationResult) : Rendered :=
  render miles data.

End WithSum.

(** Modelled from the spec: [EstimationResult] and [sumCO2], which live in
    [../types] and [./transformData]. The spec calls the former an opaque
    record from which a numeric CO2-equivalent value is extracted, and
    [kgSum] "the external sum of per-result CO2 values". *)
Record EstimationResult := { co2e : float }.

Definition sumCO2 (data : list EstimationResult) : float :=
  fold_left (fun acc r => acc + co2e r) data 0.

End Card.

(** ** The API router *)

Module Api.

Local Open Scope string_scope.
Local Open Scope Z_scope.

(** *** Query strings

    [req.query] as express parses it: a parameter is a string, an array or
    a nested object; an absent parameter is [undefined], which is [None] of
    the map's lookup. *)
Inductive QueryValue :=
| QString (s : string)
| QArray (l : list QueryValue)
| QObject (o : list (string * QueryValue)).

(** Whether a parsed object has an own key [k]. express parses the query
    with [allowPrototypes], so [?start[toString]=x] gives [start] an own
    property [toString] that is a string. *)
Definition has_own (k : string) (o : list (string * QueryValue)) : bool :=
  existsb (fun kv => String.eqb kv.1 k) o.

(** [v.toString()], [None] when the call throws a [TypeError]. A string is
    itself. An array joins the strings of its elements with commas, and
    throws when one of them throws. A plain object prints as
    [[object Object]] through [Object.prototype.toString], unless an own key
    [toString] shadows it: the own value is parsed data, never a function,
    so calling it throws, and so does converting the object to a string
    inside a join. *)
Fixpoint toString (v : QueryValue) : option string :=
  match v with
  | QString s => Some s
  | QArray l => String.concat "," <$> mapM toString l
  | QObject o => if has_own "toString" o then None else Some "[object Object]"
  end.

(** [req.query.p?.toString()]: [undefined] stays [undefined]; the outer
    [None] is a throw. *)
Definition toString_opt (v : option QueryValue) : option (option string) :=
  match v with
  | None => Some None
  | Some v => Some <$> toString v
  end.

Record Request := { query : gmap string QueryValue }.

(** [FootprintEstimatesRawRequest]: the [as string[]] and [as Tags] casts
    leave the parsed value as it is. *)
Record FootprintEstimatesRawRequest := {
  startDate : option string;
  endDate : option string;
  ignoreCache : option string;
  groupBy : option string;
  limit : option string;
  skip : option string;
  cloudProviders : option QueryValue;
  accounts : option QueryValue;
  services : option QueryValue;
  regions : option QueryValue;
  tags : option QueryValue;
}.

(** [rawRequest.groupBy = v] *)
Definition set_groupBy (v : string) (r : FootprintEstimatesRawRequest)
  : FootprintEstimatesRawRequest :=
  {| startDate := startDate r;
     endDate := endDate r;
     ignoreCache := ignoreCache r;
     groupBy := Some v;
     limit := limit r;
     skip := skip r;
     cloudProviders := cloudProviders r;
     accounts := accounts r;
     services := services r;
     regions := regions r;
     tags := tags r |}.

(** [RecommendationsRawRequest] *)
Record RecommendationsRawRequest := {
  awsRecommendationTarget : option string;
}.

(** Truthiness of a [string | undefined]: [undefined] and the empty string
    are falsy. *)
Definition truthy (s : option string) : bool :=
  match s with
  | None => false
  | Some s => negb (String.eqb s "")
  end.

(** *** Errors

    A caught value [e] is read through [e.constructor.name] and
    [e.message] only. What the application package throws are instances of
    [Error] and of its subclasses: objects with a constructor and a string
    message. A class is a function object: it has its identity, which
    [class_id] stands for, and a [name]; two classes may bear one name. *)
Record Class := {
  class_id : positive;
  name : string;
}.

Record JsError := {
  constructor : Class;
  message : string;
}.

(** Modelled from the spec: the three error classes of
    [@cloud-carbon-footprint/common], which the spec lists as three
    distinct kinds; each carries the name it is exported under. *)
Definition EstimationRequestValidationError : Class :=
  {| class_id := 1; name := "EstimationRequestValidationError" |}.
Definition PartialDataError : Class :=
  {| class_id := 2; name := "PartialDataError" |}.
Definition RecommendationsRequestValidationError : Class :=
  {| class_id := 3; name := "RecommendationsRequestValidationError" |}.

(** The engine's [TypeError], and the error of a [toString()] that is not
    callable. The wording of its message is the engine's and differs between
    engines and call sites; the handlers never read it. *)
Definition TypeError : Class := {| class_id := 4; name := "TypeError" |}.

Definition toString_failed : JsError :=
  {| constructor := TypeError; message := "toString is not a function" |}.

(** *** The response and the log *)

Inductive Level := info | warn | error.

Definition dquote : string := String (Ascii.ascii_of_nat 34) EmptyString.

Section Handlers.

(** Types of [@cloud-carbon-footprint/app] and [common]; [Payload] is
    whatever the facade returns and [res.json] serialises. *)
Context {CCFConfig EstimationRequest RecommendationsRequest Payload : Type}.

Inductive Body :=
| Text (s : string)
| Json (j : Payload).

(** express's [res]: [statusCode] starts at 200 and nothing is sent; [body]
    is what a handler hands to [res.send] or [res.json]. *)
Record Response := {
  statusCode : Z;
  body : option Body;
}.

Inductive Event :=
| Logged (level : Level) (msg : string) (err : option JsError)
| Called_createValidFootprintRequest (raw : FootprintEstimatesRawRequest)
| Called_getCostAndEstimates (r : EstimationRequest)
| Called_getEmissionsFactors
| Called_createValidRecommendationsRequest (raw : RecommendationsRawRequest)
| Called_getRecommendations (r : RecommendationsRequest).

(** What a handler can change: the socket's idle timeout (ms), the
    response, and the chronological record of log lines and calls into
    the application package. *)
Record World := {
  socket_timeout : option Z;
  res : Response;
  trace : list Event;
}.

Definition initial : World :=
  {| socket_timeout := None;
     res := {| statusCode := 200; body := None |};
     trace := [] |}.

(** The application package: the two request validators and the three
    methods of [App]. Each either throws (rejects) or returns. The
    methods read the process-wide configuration [setConfig] stored. *)
Record External := {
  createValidFootprintRequest :
    FootprintEstimatesRawRequest -> JsError + EstimationRequest;
  getCostAndEstimates :
    option CCFConfig -> EstimationRequest -> JsError + Payload;
  getEmissionsFactors : option CCFConfig -> JsError + Payload;
  createValidRecommendationsRequest :
    RecommendationsRawRequest -> JsError + RecommendationsRequest;
  getRecommendations :
    option CCFConfig -> RecommendationsRequest -> JsError + Payload;
}.

(** *** The handler monad: state and exceptions *)

Definition M (A : Type) : Type := World -> (JsError + A) * World.

#[local] Instance M_ret : MRet M := fun A a w => (inr a, w).

#[local] Instance M_bind : MBind M := fun A B f m w =>
  match m w with
  | (inl e, w') => (inl e, w')
  | (inr a, w') => f a w'
  end.

(** [try { body } catch (e) { handler e }] *)
Definition try_catch {A} (body : M A) (handler : JsError -> M A) : M A :=
  fun w =>
    match body w with
    | (inl e, w') => handler e w'
    | (inr a, w') => (inr a, w')
    end.

Definition emit (ev : Event) : M unit := fun w =>
  (inr tt, {| socket_timeout := socket_timeout w;
              res := res w;
              trace := trace w ++ [ev] |}).

(** An awaited call into the application package: recorded, then its
    result returned or its error thrown. *)
Definition call {A} (ev : Event) (r : JsError + A) : M A := fun w =>
  (r, {| socket_timeout := socket_timeout w;
         res := res w;
         trace := trace w ++ [ev] |}).

(** [req.socket.setTimeout(ms)] *)
Definition socket_setTimeout (ms : Z) : M unit := fun w =>
  (inr tt, {| socket_timeout := Some ms;
              res := res w;
              trace := trace w |}).

(** [res.status(code)] *)
Definition res_status (code : Z) : M unit := fun w =>
  (inr tt, {| socket_timeout := socket_timeout w;
              res := {| statusCode := code; body := body (res w) |};
              trace := trace w |}).

Definition res_write (b : Body) : M unit := fun w =>
  (inr tt, {| socket_timeout := socket_timeout w;
              res := {| statusCode := statusCode (res w); body := Some b |};
              trace := trace w |}).

(** [res.send(text)] and [res.json(value)] *)
Definition res_send (s : string) : M unit := res_write (Text s).
Definition res_json (j : Payload) : M unit := res_write (Json j).

(** [apiLogger = new Logger('api')] *)
Definition apiLogger_info (msg : string) : M unit := emit (Logged info msg None).
Definition apiLogger_warn (msg : string) : M unit := emit (Logged warn msg None).
Definition apiLogger_error (msg : string) (e : JsError) : M unit :=
  emit (Logged error msg (Some e)).

(** Evaluating an expression that may throw a [TypeError] on the way. *)
Definition evaluate {A} (o : option A) : M A := fun w =>
  (match o with
   | Some a => inr a
   | None => inl toString_failed
   end, w).

(** [a.constructor.name === C.prototype.constructor.name] *)
Definition same_constructor_name (e : JsError) (C : Class) : bool :=
  String.eqb (name (constructor e)) (name C).

Variable ext : External.

Section Middleware.

(** The process-wide configuration, as [setConfig] left it. *)
Variable config : option CCFConfig.

(** *** FootprintApiMiddleware *)

(** The object literal of lines 203-215, its fields evaluated in order;
    [None] when one of the six [toString()] calls throws. *)
Definition footprintRawRequest (req : Request)
  : option FootprintEstimatesRawRequest :=
  startDate ← toString_opt (query req !! "start");
  endDate ← toString_opt (query req !! "end");
  ignoreCache ← toString_opt (query req !! "ignoreCache");
  groupBy ← toString_opt (query req !! "groupBy");
  limit ← toString_opt (query req !! "limit");
  skip ← toString_opt (query req !! "skip");
  Some {| startDate := startDate;
          endDate := endDate;
          ignoreCache := ignoreCache;
          groupBy := groupBy;
          limit := limit;
          skip := skip;
          cloudProviders := query req !! "cloudProviders";
          accounts := query req !! "accounts";
          services := query req !! "services";
          regions := query req !! "regions";
          tags := query req !! "tags" |}.

Definition groupBy_warning : string :=
"GroupBy parameter not specified, adopting default " +:+ dquote +:+ "day" +:+ dquote.

Definition footprint_catch (e : JsError) : M unit :=
apiLogger_error "Unable to process footprint request." e;;
if same_constructor_name e EstimationRequestValidationError then
  res_status 400;; res_send (message e)
else if same_constructor_name e PartialDataError then
  res_status 416;; res_send (message e)
else
  res_status 500;; res_send "Internal Server Error".

Definition FootprintApiMiddleware (req : Request) : M unit :=
socket_setTimeout (1000 * 60 * 10);;
rawRequest ← evaluate (footprintRawRequest req);
apiLogger_info "Footprint API request started.";;
rawRequest ←
  (if negb (truthy (groupBy rawRequest)) then
     apiLogger_warn groupBy_warning;;
     mret (set_groupBy "day" rawRequest)
   else mret rawRequest);
try_catch
  (estimationRequest ←
     call (Called_createValidFootprintRequest rawRequest)
          (createValidFootprintRequest ext rawRequest);
   estimationResults ←
     call (Called_getCostAndEstimates estimationRequest)
          (getCostAndEstimates ext config estimationRequest);
   res_json estimationResults)
  footprint_catch.

(** *** EmissionsApiMiddleware *)

Definition emissions_catch (e : JsError) : M unit :=
apiLogger_error "Unable to process regions emissions factors request." e;;
res_status 500;; res_send "Internal Server Error".

Definition EmissionsApiMiddleware (req : Request) : M unit :=
apiLogger_info "Regions emissions factors API request started";;
try_catch
  (emissionsResults ←
     call Called_getEmissionsFactors (getEmissionsFactors ext config);
   res_json emissionsResults)
  emissions_catch.

(** *** RecommendationsApiMiddleware *)

Definition recommendationsRawRequest (req : Request)
  : option RecommendationsRawRequest :=
  awsRecommendationTarget ← toString_opt (query req !! "awsRecommendationTarget");
  Some {| awsRecommendationTarget := awsRecommendationTarget |}.

Definition recommendations_catch (e : JsError) : M unit :=
apiLogger_error "Unable to process recommendations request." e;;
if same_constructor_name e RecommendationsRequestValidationError then
  res_status 400;; res_send (message e)
else
  res_status 500;; res_send "Internal Server Error".

Definition RecommendationsApiMiddleware (req : Request) : M unit :=
rawRequest ← evaluate (recommendationsRawRequest req);
apiLogger_info "Recommendations API request started";;
try_catch
  (estimationRequest ←
     call (Called_createValidRecommendationsRequest rawRequest)
          (createValidRecommendationsRequest ext rawRequest);
   recommendations ←
     call (Called_getRecommendations estimationRequest)
          (getRecommendations ext config estimationRequest);
   res_json recommendations)
  recommendations_catch.

(** *** What reaches the validators and the [catch] clauses

  Read off the handlers above: the raw request as it stands when
  [createValidFootprintRequest] is called, and for each handler the
  error its [try] block throws, if the block is reached and throws. *)
Definition footprintValidatedRequest (req : Request)
: option FootprintEstimatesRawRequest :=
rawRequest ← footprintRawRequest req;
Some (if negb (truthy (groupBy rawRequest)) then set_groupBy "day" rawRequest
      else rawRequest).

Definition footprint_thrown (req : Request) : option JsError :=
match footprintValidatedRequest req with
| None => None
| Some rawRequest =>
    match createValidFootprintRequest ext rawRequest with
    | inl e => Some e
    | inr estimationRequest =>
        match getCostAndEstimates ext config estimationRequest with
        | inl e => Some e
        | inr _ => None
        end
    end
end.

Definition emissions_thrown : option JsError :=
match getEmissionsFactors ext config with
| inl e => Some e
| inr _ => None
end.

Definition recommendations_thrown (req : Request) : option JsError :=
match recommendationsRawRequest req with
| None => None
| Some rawRequest =>
    match createValidRecommendationsRequest ext rawRequest with
    | inl e => Some e
    | inr estimationRequest =>
        match getRecommendations ext config estimationRequest with
        | inl e => Some e
        | inr _ => None
        end
    end
end.

End Middleware.

(** *** createRouter

    A router is the list of its routes in registration order; a request
    goes to the first route that takes its method and path.
    [setConfig(config)] is the configuration every handler of the router
    then runs under. *)
Inductive Method := GET | HEAD | POST | PUT | DELETE | PATCH | OPTIONS.

Definition Method_eqb (a b : Method) : bool :=
  match a, b with
  | GET, GET | HEAD, HEAD | POST, POST | PUT, PUT | DELETE, DELETE
  | PATCH, PATCH | OPTIONS, OPTIONS => true
  | _, _ => false
  end.

Record Route := {
  method : Method;
  path : string;
  handler : Request -> M unit;
}.

(** [router.get(path, handler)] *)
Definition router_get (p : string) (h : Request -> M unit) : Route :=
  {| method := GET; path := p; handler := h |}.

(** The arrow function registered for [/healthz]. *)
Definition healthz (req : Request) : M unit :=
  res_status 200;; res_send "OK".

Definition createRouter (config : option CCFConfig) : list Route :=
  [ router_get "/footprint" (FootprintApiMiddleware config);
    router_get "/regions/emissions-factors" (EmissionsApiMiddleware config);
    router_get "/recommendations" (RecommendationsApiMiddleware config);
    router_get "/healthz" healthz ].

(** A route takes the requests of its method, and one registered with
    [get] takes HEAD requests as well. *)
Definition handles_method (r : Route) (m : Method) : bool :=
  Method_eqb (method r) m
  || (Method_eqb m HEAD && Method_eqb (method r) GET).

(** ASCII letters in lower case; the other bytes as they are. *)
Definition lower (c : Ascii.ascii) : Ascii.ascii :=
  let n := Ascii.nat_of_ascii c in
  if ((65 <=? n)%nat && (n <=? 90)%nat)%bool
  then Ascii.ascii_of_nat (n + 32)
  else c.

Fixpoint lowercase (s : string) : string :=
  match s with
  | EmptyString => EmptyString
  | String c s' => String (lower c) (lowercase s')
  end.

(** The routes of [express.Router()] are matched without regard to letter
    case and with or without one trailing slash: a registered path [p] is
    the pattern [^p/?$] with the flag [i]. *)
Definition path_matches (registered p : string) : bool :=
  String.eqb (lowercase p) (lowercase registered)
  || String.eqb (lowercase p) (lowercase registered +:+ "/").

Definition matches (m : Method) (p : string) (r : Route) : bool :=
  handles_method r m && path_matches (path r) p.

(** The handler the router runs for a request, if any. Where no route
    takes the request the router runs none of them: it passes the request
    on, or answers an OPTIONS request on a registered path itself with the
    methods allowed. *)
Definition dispatch (router : list Route) (m : Method) (p : string)
  : option (Request -> M unit) :=
  handler <$> List.find (matches m p) router.

(** Serving a request: the outcome of the handler's promise and the world
    it leaves, or [None] when no route of the router takes the request. *)
Definition serve (router : list Route) (m : Method) (p : string) (req : Request)
  : option ((JsError + unit) * World) :=
  (fun h => h req initial) <$> dispatch router m p.

(** *** Reading a trace

    The raw requests the validators were called with, in order. *)
Definition validated_footprint (tr : list Event)
  : list FootprintEstimatesRawRequest :=
  omap (fun ev => match ev with
                  | Called_createValidFootprintRequest raw => Some raw
                  | _ => None
                  end) tr.

Definition validated_recommendations (tr : list Event)
  : list RecommendationsRawRequest :=
  omap (fun ev => match ev with
                  | Called_createValidRecommendationsRequest raw => Some raw
                  | _ => None
                  end) tr.

(** The footprint handler passes its raw request verbatim: the validator
    is called once, with the fields just as extracted from the query. *)
Definition footprint_passed_verbatim (config : option CCFConfig) (req : Request)
  : Prop :=
  exists rawRequest,
    footprintRawRequest req = Some rawRequest
    /\ validated_footprint (trace (FootprintApiMiddleware config req initial).2)
       = [rawRequest].

End Handlers.

Arguments Body : clear implicits.
Arguments Response : clear implicits.

(** *** The spec's taxonomy of errors

    The four kinds the spec names, and the response it gives each kind in
    each handler; [classify] sorts a caught error by its constructor's
    name. *)
Inductive Kind :=
| FootprintValidation
| RecommendationsValidation
| PartialData
| Unclassified.

Definition classify (e : JsError) : Kind :=
  if same_constructor_name e EstimationRequestValidationError then FootprintValidation
  else if same_constructor_name e RecommendationsRequestValidationError then
    RecommendationsValidation
  else if same_constructor_name e PartialDataError then PartialData
  else Unclassified.

Inductive Endpoint := Footprint | Emissions | Recommendations.

Section Endpoints.

Context {CCFConfig EstimationRequest RecommendationsRequest Payload : Type}.
Variable ext : @External CCFConfig EstimationRequest RecommendationsRequest Payload.
Variable config : option CCFConfig.

(** The handler [createRouter] registers for each endpoint, and the error
    its [try] block throws. *)
Definition middleware (h : Endpoint) : Request -> M unit :=
  match h with
  | Footprint => FootprintApiMiddleware ext config
  | Emissions => EmissionsApiMiddleware ext config
  | Recommendations => RecommendationsApiMiddleware ext config
  end.

Definition thrown (h : Endpoint) (req : Request) : option JsError :=
  match h with
  | Footprint => footprint_thrown ext config req
  | Emissions => emissions_thrown ext config
  | Recommendations => recommendations_thrown ext config req
  end.

End Endpoints.

Definition generic_500 {Payload} : Response Payload :=
  {| statusCode := 500; body := Some (Text "Internal Server Error") |}.

Definition surfaced {Payload} (code : Z) (e : JsError) : Response Payload :=
  {| statusCode := code; body := Some (Text (message e)) |}.

Definition error_response {Payload} (h : Endpoint) (e : JsError)
  : Response Payload :=
  match h, classify e with
  | Footprint, FootprintValidation => surfaced 400 e
  | Footprint, PartialData => surfaced 416 e
  | Recommendations, RecommendationsValidation => surfaced 400 e
  | _, _ => generic_500
  end.

(** The world a [catch] clause leaves: the error is logged, then the
    response is the one the taxonomy gives the error's kind. *)
Definition caught {EstimationRequest RecommendationsRequest Payload : Type}
  (h : Endpoint) (msg : string) (e : JsError) 
  (w : @World EstimationRequest RecommendationsRequest Payload)
  : @World EstimationRequest RecommendationsRequest Payload :=
  {| socket_timeout := socket_timeout w;
     res := error_response h e;
     trace := trace w ++ [Logged error msg (Some e)] |}.

(** *** Discrimination by identity

    The reading under which a caught error is told apart by which class its
    constructor is: an error whose constructor is none of the three imported
    classes gets the generic 500. *)
Definition recognised (C : Class) : Prop :=
  C = EstimationRequestValidationError
  \/ C = RecommendationsRequestValidationError
  \/ C = PartialDataError.

Definition discriminates_by_identity
  {CCFConfig EstimationRequest RecommendationsRequest Payload : Type}
  (ext : @External CCFConfig EstimationRequest RecommendationsRequest Payload)
  (config : option CCFConfig) (h : Endpoint) (req : Request) : Prop :=
  forall e,
    thrown ext config h req = Some e ->
    ~ recognised (constructor e) ->
    res (middleware ext config h req initial).2 = generic_500.

End Api.

(** ** Concrete requests and application packages *)

Module Sample.

Import Api.
Local Open Scope string_scope.

Definition validation_error : JsError :=
  {| constructor := EstimationRequestValidationError;
     message := "Start date is not in a recognized format." |}.

Definition partial_data_error : JsError :=
  {| constructor := PartialDataError;
     message := "Partial Data validation failed." |}.

Definition recommendations_error : JsError :=
  {| constructor := RecommendationsRequestValidationError;
     message := "AWS Recommendation Target is not valid" |}.

Definition type_error : JsError :=
  {| constructor := TypeError;
     message := "Cannot read properties of undefined" |}.

(** An error of an unrelated class that bears the name of the footprint
    validation error. *)
Definition impostor : JsError :=
  {| constructor := {| class_id := 7;
                       name := "EstimationRequestValidationError" |};
     message := "not from the validator" |}.

(** An application package over toy types: requests are unit, payloads are
    strings. Every entry point throws [e]. *)
Definition failing (e : JsError) : @External unit unit unit string :=
  {| createValidFootprintRequest := fun _ => inl e;
     getCostAndEstimates := fun _ _ => inl e;
     getEmissionsFactors := fun _ => inl e;
     createValidRecommendationsRequest := fun _ => inl e;
     getRecommendations := fun _ _ => inl e |}.

(** The validators accept everything; the methods of [App] throw [e]. *)
Definition failing_late (e : JsError) : @External unit unit unit string :=
  {| createValidFootprintRequest := fun _ => inr tt;
     getCostAndEstimates := fun _ _ => inl e;
     getEmissionsFactors := fun _ => inl e;
     createValidRecommendationsRequest := fun _ => inr tt;
     getRecommendations := fun _ _ => inl e |}.

(** Nothing throws. *)
Definition working : @External unit unit unit string :=
  {| createValidFootprintRequest := fun _ => inr tt;
     getCostAndEstimates := fun _ _ => inr "[]";
     getEmissionsFactors := fun _ => inr "[]";
     createValidRecommendationsRequest := fun _ => inr tt;
     getRecommendations := fun _ _ => inr "[]" |}.

(** [GET /footprint?start=2021-01-01&end=2021-02-01] *)
Definition dated : Request :=
  {| query := {[ "start" := QString "2021-01-01"; "end" := QString "2021-02-01" ]} |}.

(** [GET /footprint?start=2021-01-01&end=2021-02-01&groupBy=month] *)
Definition dated_monthly : Request :=
  {| query := <["groupBy" := QString "month"]> (query dated) |}.

(** A request without any query parameter. *)
Definition bare : Request := {| query := ∅ |}.

(** [GET /footprint?start[toString]=x]: [start] is parsed as an object with
    an own key [toString]. *)
Definition start_shadowed : Request :=
  {| query := {[ "start" := QObject [("toString", QString "x")] ]} |}.

(** [GET /recommendations?awsRecommendationTarget[toString]=x] *)
Definition target_shadowed : Request :=
  {| query := {[ "awsRecommendationTarget"
                 := QObject [("toString", QString "x")] ]} |}.

(** Two estimation results, 1000 kg and half a kilogram. *)
Definition one_tonne : list Card.EstimationResult :=
  [ {| Card.co2e := 1000%float |}; {| Card.co2e := 0.5%float |} ].

End Sample.

(** ** The card's selection state *)

Module CardState.

Import Card.

(** [updateSelection]: [setSelection(selection)] replaces the state,
    whatever it was. *)
Definition updateSelection (selection : Selection) (current : Selection)
  : Selection := selection.

(** The selection after the buttons were clicked in the given order,
    starting from [useState('miles')]. *)
Definition after_clicks (clicks : list Selection) : Selection :=
  fold_left (fun current s => updateSelection s current) clicks miles.

(** The colour of the button of unit [b] in a rendered card: the three
    buttons are Miles, Gas and Trees, in this order. *)
Definition button (r : Rendered) (b : Selection) : Color :=
  match b with
  | miles => (buttons r).1.1
  | gas => (buttons r).1.2
  | trees => (buttons r).2
  end.

End CardState.

(** ** What a handler returns, and the parameters it reads *)

Module Outcomes.

Import Api.
Local Open Scope string_scope.

Section Returned.

Context {CCFConfig EstimationRequest RecommendationsRequest Payload : Type}.
Variable ext : @External CCFConfig EstimationRequest RecommendationsRequest Payload.
Variable config : option CCFConfig.

(** The value a handler's [try] block hands to [res.json], when nothing
    throws before. *)
Definition footprint_returned (req : Request) : option Payload :=
  match footprintValidatedRequest req with
  | None => None
  | Some rawRequest =>
      match createValidFootprintRequest ext rawRequest with
      | inl _ => None
      | inr estimationRequest =>
          match getCostAndEstimates ext config estimationRequest with
          | inl _ => None
          | inr estimationResults => Some estimationResults
          end
      end
  end.

Definition emissions_returned : option Payload :=
  match getEmissionsFactors ext config with
  | inl _ => None
  | inr emissionsResults => Some emissionsResults
  end.

Definition recommendations_returned (req : Request) : option Payload :=
  match recommendationsRawRequest req with
  | None => None
  | Some rawRequest =>
      match createValidRecommendationsRequest ext rawRequest with
      | inl _ => None
      | inr estimationRequest =>
          match getRecommendations ext config estimationRequest with
          | inl _ => None
          | inr recommendations => Some recommendations
          end
      end
  end.

Definition returned (h : Endpoint) (req : Request) : option Payload :=
  match h with
  | Footprint => footprint_returned req
  | Emissions => emissions_returned
  | Recommendations => recommendations_returned req
  end.

(** The calls into the application package a trace records, log lines
    left out. *)
Definition is_call (ev : @Event EstimationRequest RecommendationsRequest)
  : bool :=
  match ev with
  | Logged _ _ _ => false
  | _ => true
  end.

Definition calls (tr : list (@Event EstimationRequest RecommendationsRequest))
  : list (@Event EstimationRequest RecommendationsRequest) :=
  List.filter is_call tr.

End Returned.

(** Whether the string parameters a handler reads can all be read: no
    [toString()] of lines 204-209 or 263 throws. *)
Definition readable (h : Endpoint) (req : Request) : bool :=
  match h with
  | Footprint =>
      match footprintRawRequest req with Some _ => true | None => false end
  | Emissions => true
  | Recommendations =>
      match recommendationsRawRequest req with Some _ => true | None => false end
  end.

(** The query parameters each handler reads; the first six of the footprint
    handler go through [toString]. *)
Definition footprint_string_params : list string :=
  [ "start"; "end"; "ignoreCache"; "groupBy"; "limit"; "skip" ].

Definition footprint_params : list string :=
  footprint_string_params
  ++ [ "cloudProviders"; "accounts"; "services"; "regions"; "tags" ].

Definition params (h : Endpoint) : list string :=
  match h with
  | Footprint => footprint_params
  | Emissions => []
  | Recommendations => [ "awsRecommendationTarget" ]
  end.

(** The paths [createRouter] registers. *)
Definition routed_paths : list string :=
  [ "/footprint"; "/regions/emissions-factors"; "/recommendations"; "/healthz" ].

End Outcomes.

(** ** Facts about the comparison card *)

Module CardFacts.

Import Card Sample.
Local Open Scope float_scope.

Example sumCO2_one_tonne : sumCO2 one_tonne = 1000.5.
Proof. reflexivity. Qed.

Example card_one_tonne :
  let r := CarbonComparisonCard sumCO2 one_tonne in
  (milesSum r, gasSum r, treesSum r)
  = (2482.6302747899999, 112.58016194999999, 16.5434676).
Proof. reflexivity. Qed.

Example card_first_shows_miles :
  icon (shown (CarbonComparisonCard sumCO2 one_tonne)) = DriveEta
  /\ buttons (CarbonComparisonCard sumCO2 one_tonne) = (primary, default, default).
Proof. split; reflexivity. Qed.

Lemma lookup_total {E} (sum : list E -> float) sel data :
  total (lookup (comparisons (render sum sel data)) sel)
  = match sel with
    | miles => milesSum (render sum sel data)
    | gas => gasSum (render sum sel data)
    | trees => treesSum (render sum sel data)
    end.
Proof. destruct sel; reflexivity. Qed.

(** C5. Whatever list of estimation results the card is given, whatever
    the external [sumCO2] is and whichever unit is selected, the card's
    [kgSum] is [sumCO2 data] and its derived values are the binary64
    products treesSum = kgSum * 0.0165352, gasSum = kgSum * 0.1125239 and
    milesSum = kgSum * 2.48138958; these are the totals its three
    comparison entries carry. *)
Theorem C5_derived_values {E} (sum : list E -> float) (sel : Selection) (data : list E) :
  let r := render sum sel data in
  kgSum r = sum data
  /\ treesSum r = kgSum r * 0.0165352
  /\ gasSum r = kgSum r * 0.1125239
  /\ milesSum r = kgSum r * 2.48138958
  /\ total (c_trees (comparisons r)) = treesSum r
  /\ total (c_gas (comparisons r)) = gasSum r
  /\ total (c_miles (comparisons r)) = milesSum r.
Proof. cbv zeta. unfold render; cbn [kgSum treesSum gasSum milesSum comparisons
  c_trees c_gas c_miles total]. repeat split. Qed.

(** C6. Rendering is a total function, and for the empty list of results
    [kgSum] is 0 and milesSum, gasSum and treesSum are all 0, under every
    selection. *)
Theorem C6_empty_input (sel : Selection) :
  let r := render sumCO2 sel [] in
  kgSum r = 0 /\ milesSum r = 0 /\ gasSum r = 0 /\ treesSum r = 0
  /\ total (shown r) = 0.
Proof. destruct sel; repeat split; reflexivity. Qed.

End CardFacts.

(** ** Facts about the API router *)

Module ApiFacts.

Import Api Sample.
Local Open Scope string_scope.
Local Open Scope Z_scope.

(** Unfold the monad and the primitive effects of a handler. *)
Ltac run_monad :=
  cbv [mbind mret M_bind M_ret option_bind try_catch call emit evaluate
       socket_setTimeout res_status res_write res_send res_json
       apiLogger_info apiLogger_warn apiLogger_error];
  cbn [socket_timeout res trace statusCode body initial].

(** *** Classifying by constructor name *)

Lemma same_constructor_name_true e C :
  name (constructor e) = name C -> same_constructor_name e C = true.
Proof. intros H. unfold same_constructor_name. rewrite H. apply String.eqb_refl. Qed.

Lemma same_constructor_name_false e C :
  name (constructor e) <> name C -> same_constructor_name e C = false.
Proof. intros H. unfold same_constructor_name. now apply String.eqb_neq. Qed.

Lemma classify_by_name e e' :
  name (constructor e) = name (constructor e') -> classify e = classify e'.
Proof. intros H. unfold classify, same_constructor_name. now rewrite H. Qed.

Lemma classify_footprint_validation e :
  name (constructor e) = name EstimationRequestValidationError ->
  classify e = FootprintValidation.
Proof. intros H. unfold classify. now rewrite same_constructor_name_true. Qed.

Lemma classify_partial_data e :
  name (constructor e) = name PartialDataError -> classify e = PartialData.
Proof.
  intros H. unfold classify, same_constructor_name. rewrite H. reflexivity.
Qed.

Lemma classify_recommendations_validation e :
  name (constructor e) = name RecommendationsRequestValidationError ->
  classify e = RecommendationsValidation.
Proof.
  intros H. unfold classify, same_constructor_name. rewrite H. reflexivity.
Qed.

Lemma classify_unclassified e :
  classify e = Unclassified <->
  name (constructor e) <> name EstimationRequestValidationError
  /\ name (constructor e) <> name RecommendationsRequestValidationError
  /\ name (constructor e) <> name PartialDataError.
Proof.
  unfold classify, same_constructor_name.
  destruct (String.eqb_spec (name (constructor e))
              (name EstimationRequestValidationError)) as [E1|E1];
    [split; [discriminate | tauto] |].
  destruct (String.eqb_spec (name (constructor e))
              (name RecommendationsRequestValidationError)) as [E2|E2];
    [split; [discriminate | tauto] |].
  destruct (String.eqb_spec (name (constructor e)) (name PartialDataError))
    as [E3|E3]; [split; [discriminate | tauto] |].
  tauto.
Qed.

Section Catching.

Context {CCFConfig EstimationRequest RecommendationsRequest Payload : Type}.

#[local] Abbreviation World := (@World EstimationRequest RecommendationsRequest Payload).

Lemma footprint_catch_spec e (w : World) :
  footprint_catch e w
  = (inr tt, caught Footprint "Unable to process footprint request." e w).
Proof.
  unfold footprint_catch, caught, error_response, classify,
    same_constructor_name.
  run_monad.
  destruct (String.eqb_spec (name (constructor e))
              (name EstimationRequestValidationError)) as [E1|E1];
    [reflexivity|].
  destruct (String.eqb_spec (name (constructor e)) (name PartialDataError))
    as [E2|E2].
  - rewrite E2. reflexivity.
  - destruct (String.eqb_spec (name (constructor e))
                (name RecommendationsRequestValidationError)); reflexivity.
Qed.

Lemma emissions_catch_spec e (w : World) :
  emissions_catch e w
  = (inr tt,
     caught Emissions "Unable to process regions emissions factors request." e w).
Proof.
  unfold emissions_catch, caught, error_response. run_monad.
  destruct (classify e); reflexivity.
Qed.

Lemma recommendations_catch_spec e (w : World) :
  recommendations_catch e w
  = (inr tt,
     caught Recommendations "Unable to process recommendations request." e w).
Proof.
  unfold recommendations_catch, caught, error_response, classify,
    same_constructor_name.
  run_monad.
  destruct (String.eqb_spec (name (constructor e))
              (name RecommendationsRequestValidationError)) as [E1|E1].
  - rewrite E1. reflexivity.
  - destruct (String.eqb_spec (name (constructor e))
                (name EstimationRequestValidationError)); [reflexivity|].
    destruct (String.eqb_spec (name (constructor e)) (name PartialDataError));
      reflexivity.
Qed.

End Catching.

(** Case analysis on a run of a handler: on whether the parameters can be
    read, on the truthiness of [groupBy], and on what the validator and the
    application method do. *)
Ltac footprint_cases :=
  unfold FootprintApiMiddleware, footprint_thrown, footprintValidatedRequest;
  destruct (footprintRawRequest _) as [?raw|] eqn:?;
  [ run_monad; destruct (truthy (groupBy _)) eqn:?; cbn [negb]; run_monad;
    (destruct (createValidFootprintRequest _ _) as [?e|?r] eqn:?;
     [ rewrite ?footprint_catch_spec
     | destruct (getCostAndEstimates _ _ _) as [?e|?j] eqn:?;
       rewrite ?footprint_catch_spec ])
  | run_monad ];
  cbn [caught fst snd res trace socket_timeout statusCode body].

Ltac emissions_cases :=
  unfold EmissionsApiMiddleware, emissions_thrown;
  run_monad;
  destruct (getEmissionsFactors _ _) as [?e|?j] eqn:?;
  rewrite ?emissions_catch_spec;
  cbn [caught fst snd res trace socket_timeout statusCode body].

Ltac recommendations_cases :=
  unfold RecommendationsApiMiddleware, recommendations_thrown;
  destruct (recommendationsRawRequest _) as [?raw|] eqn:?;
  [ run_monad;
    (destruct (createValidRecommendationsRequest _ _) as [?e|?r] eqn:?;
     [ rewrite ?recommendations_catch_spec
     | destruct (getRecommendations _ _ _) as [?e|?j] eqn:?;
       rewrite ?recommendations_catch_spec ])
  | run_monad ];
  cbn [caught fst snd res trace socket_timeout statusCode body].

Ltac handler_cases h :=
  destruct h; cbn [middleware thrown];
  [ footprint_cases | emissions_cases | recommendations_cases ].

(** *** Running the handlers when the [try] block throws *)

Section Throwing.

Context {CCFConfig EstimationRequest RecommendationsRequest Payload : Type}.
Variable ext : @External CCFConfig EstimationRequest RecommendationsRequest Payload.
Variable config : option CCFConfig.

Lemma footprint_run_thrown req e :
  footprint_thrown ext config req = Some e ->
  exists w0,
    FootprintApiMiddleware ext config req initial
    = (inr tt, caught Footprint "Unable to process footprint request." e w0).
Proof. footprint_cases; intros [= <-]; eauto. Qed.

Lemma emissions_run_thrown req e :
  emissions_thrown ext config = Some e ->
  exists w0,
    EmissionsApiMiddleware ext config req initial
    = (inr tt,
       caught Emissions "Unable to process regions emissions factors request." e w0).
Proof. emissions_cases; intros [= <-]; eauto. Qed.

Lemma recommendations_run_thrown req e :
  recommendations_thrown ext config req = Some e ->
  exists w0,
    RecommendationsApiMiddleware ext config req initial
    = (inr tt,
       caught Recommendations "Unable to process recommendations request." e w0).
Proof. recommendations_cases; intros [= <-]; eauto. Qed.

(** Every handler that catches [e] resolves, with the response of [e]'s
    kind, whichever application package it runs against. *)
Lemma middleware_thrown_any
  (ext' : @External CCFConfig EstimationRequest RecommendationsRequest Payload)
  (config' : option CCFConfig) h req e :
  thrown ext' config' h req = Some e ->
  exists w,
    middleware ext' config' h req initial = (inr tt, w)
    /\ res w = error_response h e.
Proof. handler_cases h; intros [= <-]; eauto. Qed.

(** Every handler that catches [e] resolves, with the response of [e]'s kind. *)
Lemma middleware_thrown h req e :
  thrown ext config h req = Some e ->
  exists w,
    middleware ext config h req initial = (inr tt, w)
    /\ res w = error_response h e.
Proof.
  destruct h; cbn [thrown middleware]; intros H.
  - destruct (footprint_run_thrown _ _ H) as [w0 ->]. eauto.
  - destruct (emissions_run_thrown req _ H) as [w0 ->]. eauto.
  - destruct (recommendations_run_thrown _ _ H) as [w0 ->]. eauto.
Qed.

(** The catch clause leaves its mark in the trace: what a handler logs at
    level [error] is exactly the error its [try] block threw. *)
Lemma middleware_thrown_logged h req e :
  thrown ext config h req = Some e ->
  exists msg, In (Logged error msg (Some e))
                 (trace (middleware ext config h req initial).2).
Proof.
  destruct h; cbn [thrown middleware]; intros H.
  - destruct (footprint_run_thrown _ _ H) as [w0 ->]. eexists.
    cbn. apply in_or_app. right. left. reflexivity.
  - destruct (emissions_run_thrown req _ H) as [w0 ->]. eexists.
    cbn. apply in_or_app. right. left. reflexivity.
  - destruct (recommendations_run_thrown _ _ H) as [w0 ->]. eexists.
    cbn. apply in_or_app. right. left. reflexivity.
Qed.

(** Conversely, a handler logs at level [error] only what it caught. *)
Lemma middleware_logged_thrown h req e msg :
  In (Logged error msg (Some e)) (trace (middleware ext config h req initial).2) ->
  thrown ext config h req = Some e.
Proof. handler_cases h; cbn; intuition (try discriminate; congruence). Qed.

(** C1. In the footprint handler, a caught error whose constructor has the
    name of [EstimationRequestValidationError] gives status 400 with the
    error's own message as the body, and the handler resolves. *)
Theorem C1_footprint_validation_400 (req : Request) (e : JsError) :
  footprint_thrown ext config req = Some e ->
  name (constructor e) = name EstimationRequestValidationError ->
  exists w,
    FootprintApiMiddleware ext config req initial = (inr tt, w)
    /\ res w = {| statusCode := 400; body := Some (Text (message e)) |}.
Proof.
  intros Hthrown Hname.
  destruct (middleware_thrown Footprint req e Hthrown) as (w & Hrun & Hres).
  exists w. split; [exact Hrun|].
  rewrite Hres. unfold error_response.
  now rewrite (classify_footprint_validation e Hname).
Qed.

(** C2. In the footprint handler, a caught error whose constructor has the
    name of [PartialDataError] gives status 416 with the error's message as
    the body. *)
Theorem C2_footprint_partial_data_416 (req : Request) (e : JsError) :
  footprint_thrown ext config req = Some e ->
  name (constructor e) = name PartialDataError ->
  exists w,
    FootprintApiMiddleware ext config req initial = (inr tt, w)
    /\ res w = {| statusCode := 416; body := Some (Text (message e)) |}.
Proof.
  intros Hthrown Hname.
  destruct (middleware_thrown Footprint req e Hthrown) as (w & Hrun & Hres).
  exists w. split; [exact Hrun|].
  rewrite Hres. unfold error_response.
  now rewrite (classify_partial_data e Hname).
Qed.

(** C3. In each of the three handlers, a caught error whose constructor has
    none of the three recognised names gives status 500 with the fixed body
    [Internal Server Error], whatever the error's message, and the handler's
    promise resolves: nothing is thrown past it. *)
Theorem C3_unrecognised_500 (h : Endpoint) (req : Request) (e : JsError) :
  thrown ext config h req = Some e ->
  name (constructor e) <> name EstimationRequestValidationError ->
  name (constructor e) <> name RecommendationsRequestValidationError ->
  name (constructor e) <> name PartialDataError ->
  exists w,
    middleware ext config h req initial = (inr tt, w)
    /\ res w = {| statusCode := 500;
                  body := Some (Text "Internal Server Error") |}.
Proof.
  intros Hthrown N1 N2 N3.
  destruct (middleware_thrown h req e Hthrown) as (w & Hrun & Hres).
  exists w. split; [exact Hrun|].
  rewrite Hres. unfold error_response.
  assert (classify e = Unclassified) as -> by (apply classify_unclassified; auto).
  now destruct h.
Qed.

(** What the raw request holds when it can be built: each field is what
    the query gave for its parameter. *)
Lemma footprintRawRequest_Some req raw :
  footprintRawRequest req = Some raw ->
  toString_opt (query req !! "start") = Some (startDate raw)
  /\ toString_opt (query req !! "end") = Some (endDate raw)
  /\ toString_opt (query req !! "ignoreCache") = Some (ignoreCache raw)
  /\ toString_opt (query req !! "groupBy") = Some (groupBy raw)
  /\ toString_opt (query req !! "limit") = Some (limit raw)
  /\ toString_opt (query req !! "skip") = Some (skip raw)
  /\ cloudProviders raw = query req !! "cloudProviders"
  /\ accounts raw = query req !! "accounts"
  /\ services raw = query req !! "services"
  /\ regions raw = query req !! "regions"
  /\ tags raw = query req !! "tags".
Proof.
  unfold footprintRawRequest.
  destruct (toString_opt (query req !! "start")); [|discriminate].
  destruct (toString_opt (query req !! "end")); [|discriminate].
  destruct (toString_opt (query req !! "ignoreCache")); [|discriminate].
  destruct (toString_opt (query req !! "groupBy")); [|discriminate].
  destruct (toString_opt (query req !! "limit")); [|discriminate].
  destruct (toString_opt (query req !! "skip")); [|discriminate].
  cbn. intros [= <-]. cbn. repeat split.
Qed.

Lemma error_response_by_name {P} h e e' :
  name (constructor e') = name (constructor e) ->
  message e' = message e ->
  @error_response P h e' = error_response h e.
Proof.
  intros Hn Hm. unfold error_response, surfaced.
  now rewrite (classify_by_name e' e Hn), Hm.
Qed.

(** C8 (amended). The handlers tell errors apart by the name of the caught
    error's constructor, compared with the names of the two validation-error
    classes and of the partial-data class, not by which class it is: the
    response is the one the taxonomy gives the name; two caught errors with
    the same constructor name and message get the same response, whatever
    their classes; and an error of none of the three names gets the generic
    500. *)
Theorem C8_discrimination_by_constructor_name
  (h : Endpoint) (req : Request) (e : JsError) :
  thrown ext config h req = Some e ->
  (exists w,
     middleware ext config h req initial = (inr tt, w)
     /\ res w = error_response h e)
  /\ (forall (ext' : @External CCFConfig EstimationRequest
                       RecommendationsRequest Payload)
             config' req' e',
        thrown ext' config' h req' = Some e' ->
        name (constructor e') = name (constructor e) ->
        message e' = message e ->
        res (middleware ext' config' h req' initial).2
        = res (middleware ext config h req initial).2)
  /\ (name (constructor e) <> name EstimationRequestValidationError ->
      name (constructor e) <> name RecommendationsRequestValidationError ->
      name (constructor e) <> name PartialDataError ->
      exists w,
        middleware ext config h req initial = (inr tt, w)
        /\ res w = generic_500).
Proof.
  intros Hthrown.
  destruct (middleware_thrown h req e Hthrown) as (w & Hrun & Hres).
  split; [eauto|]. split.
  - intros ext' config' req' e' Hthrown' Hn Hm.
    destruct (middleware_thrown_any ext' config' h req' e' Hthrown')
      as (w' & Hrun' & Hres').
    rewrite Hrun, Hrun'. cbn [snd]. rewrite Hres, Hres'.
    now apply error_response_by_name.
  - intros N1 N2 N3.
    assert (classify e = Unclassified) as Hk by (apply classify_unclassified; auto).
    exists w. split; [exact Hrun|].
    rewrite Hres. unfold error_response. rewrite Hk. now destruct h.
Qed.

(** C10. In the recommendations handler only an error named as
    [RecommendationsRequestValidationError] gets 400 with its message; every
    other caught error gets the generic 500, and so does one named as
    [PartialDataError], which is not answered with 416. *)
Theorem C10_recommendations_partial_data_500 (req : Request) (e : JsError) :
  recommendations_thrown ext config req = Some e ->
  exists w,
    RecommendationsApiMiddleware ext config req initial = (inr tt, w)
    /\ res w = (if same_constructor_name e RecommendationsRequestValidationError
                then {| statusCode := 400; body := Some (Text (message e)) |}
                else {| statusCode := 500;
                        body := Some (Text "Internal Server Error") |})
    /\ (name (constructor e) = name PartialDataError ->
        res w = {| statusCode := 500; body := Some (Text "Internal Server Error") |}
        /\ statusCode (res w) <> 416).
Proof.
  intros Hthrown.
  destruct (recommendations_run_thrown req e Hthrown) as [w0 Hrun].
  eexists. split; [exact Hrun|]. cbn [caught res]. split.
  - unfold error_response, classify.
    destruct (same_constructor_name e RecommendationsRequestValidationError) eqn:E.
    + unfold same_constructor_name in *. apply String.eqb_eq in E.
      rewrite E. reflexivity.
    + destruct (same_constructor_name e EstimationRequestValidationError);
        [reflexivity|].
      destruct (same_constructor_name e PartialDataError); reflexivity.
  - intros Hname. unfold error_response.
    rewrite (classify_partial_data e Hname). split; [reflexivity | discriminate].
Qed.

(** C4. On [GET /footprint?start[toString]=x], a request without
    [groupBy], the handler never gets to the default: reading [start]
    throws at line 204, outside the [try] block. The promise is rejected
    with the [TypeError]; the timeout is set, nothing is logged, the
    validator is not called and no response is written. *)
Theorem C4_unreadable_start_escapes :
  query start_shadowed !! "groupBy" = None
  /\ FootprintApiMiddleware ext config start_shadowed initial
     = (inl toString_failed,
        {| socket_timeout := Some 600000;
           res := {| statusCode := 200; body := None |};
           trace := [] |}).
Proof. split; reflexivity. Qed.

(** C9 (amended). On a request whose string parameters can be read, the
    recommendations handler calls its validator once, with the raw request
    exactly as extracted from the query, and the footprint handler calls its
    validator once, with each field as extracted from the query except
    [groupBy], which is the extracted value when that is a non-empty string
    and ["day"] otherwise. *)
Theorem C9_raw_request_validated (req : Request) :
  (forall raw,
     footprintRawRequest req = Some raw ->
     let r := if truthy (groupBy raw) then raw else set_groupBy "day" raw in
     validated_footprint
       (trace (FootprintApiMiddleware ext config req initial).2)
     = [r]
     /\ toString_opt (query req !! "start") = Some (startDate r)
     /\ toString_opt (query req !! "end") = Some (endDate r)
     /\ toString_opt (query req !! "ignoreCache") = Some (ignoreCache r)
     /\ toString_opt (query req !! "groupBy") = Some (groupBy raw)
     /\ groupBy r = (if truthy (groupBy raw) then groupBy raw else Some "day")
     /\ toString_opt (query req !! "limit") = Some (limit r)
     /\ toString_opt (query req !! "skip") = Some (skip r)
     /\ cloudProviders r = query req !! "cloudProviders"
     /\ accounts r = query req !! "accounts"
     /\ services r = query req !! "services"
     /\ regions r = query req !! "regions"
     /\ tags r = query req !! "tags")
  /\ (forall raw,
        recommendationsRawRequest req = Some raw ->
        validated_recommendations
          (trace (RecommendationsApiMiddleware ext config req initial).2)
        = [raw]
        /\ toString_opt (query req !! "awsRecommendationTarget")
           = Some (awsRecommendationTarget raw)).
Proof.
  split.
  - intros raw Hraw. cbv zeta.
    pose proof (footprintRawRequest_Some req raw Hraw) as Hfields.
    split.
    + unfold FootprintApiMiddleware. rewrite Hraw. run_monad.
      destruct (truthy (groupBy raw)); cbn [negb]; run_monad;
        (destruct (createValidFootprintRequest ext _) as [e1|r];
         [ rewrite footprint_catch_spec; reflexivity
         | destruct (getCostAndEstimates ext config r) as [e2|j];
           [ rewrite footprint_catch_spec; reflexivity | reflexivity ] ]).
    + destruct (truthy (groupBy raw)); cbn; tauto.
  - intros raw Hraw. split.
    + unfold RecommendationsApiMiddleware. rewrite Hraw. run_monad.
      destruct (createValidRecommendationsRequest ext _) as [e1|r];
        [ rewrite recommendations_catch_spec; reflexivity
        | destruct (getRecommendations ext config r) as [e2|j];
          [ rewrite recommendations_catch_spec; reflexivity | reflexivity ] ].
    + revert Hraw. unfold recommendationsRawRequest.
      destruct (toString_opt (query req !! "awsRecommendationTarget"));
        [|discriminate].
      cbn. now intros [= <-].
Qed.

(** C7. Whatever the application package does, whatever configuration the
    router was created with and whatever the query, [GET /healthz] is served
    by a handler that resolves with status 200 and the body [OK], touching
    neither the log nor the application. *)
Theorem C7_healthz_ok (req : Request) :
  serve (createRouter ext config) GET "/healthz" req
  = Some (inr tt,
          {| socket_timeout := None;
             res := {| statusCode := 200; body := Some (Text "OK") |};
             trace := [] |}).
Proof. reflexivity. Qed.

End Throwing.

(** *** The handlers on concrete requests *)

Example toString_array :
  toString (QArray [QString "AWS"; QString "GCP"; QObject []])
  = Some "AWS,GCP,[object Object]".
Proof. reflexivity. Qed.

Example toString_shadowed :
  toString (QObject [("toString", QString "x")]) = None
  /\ toString (QArray [QString "a"; QObject [("toString", QString "x")]]) = None
  /\ toString (QObject [("valueOf", QString "x")]) = Some "[object Object]".
Proof. repeat split. Qed.

Example recommendations_unreadable_target_escapes :
  RecommendationsApiMiddleware working None target_shadowed initial
  = (inl toString_failed, initial).
Proof. reflexivity. Qed.

Example footprint_ok :
  serve (createRouter working None) GET "/footprint" dated_monthly
  = Some (inr tt,
          {| socket_timeout := Some 600000;
             res := {| statusCode := 200; body := Some (Json "[]") |};
             trace :=
               [ Logged info "Footprint API request started." None;
                 Called_createValidFootprintRequest
                   {| startDate := Some "2021-01-01";
                      endDate := Some "2021-02-01";
                      ignoreCache := None;
                      groupBy := Some "month";
                      limit := None;
                      skip := None;
                      cloudProviders := None;
                      accounts := None;
                      services := None;
                      regions := None;
                      tags := None |};
                 Called_getCostAndEstimates tt ] |}).
Proof. vm_compute. reflexivity. Qed.

Example footprint_empty_groupBy_defaults :
  validated_footprint
    (trace (FootprintApiMiddleware working None
              {| query := {[ "groupBy" := QString "" ]} |} initial).2)
  = set_groupBy "day" <$> option_list (footprintRawRequest bare).
Proof. vm_compute. reflexivity. Qed.

Example footprint_partial_data_late :
  res (FootprintApiMiddleware (failing_late partial_data_error) None dated initial).2
  = {| statusCode := 416;
       body := Some (Text "Partial Data validation failed.") |}.
Proof. vm_compute. reflexivity. Qed.

Example footprint_recommendations_error_is_masked :
  res (FootprintApiMiddleware (failing recommendations_error) None dated initial).2
  = generic_500.
Proof. vm_compute. reflexivity. Qed.

Example emissions_always_masked :
  res (EmissionsApiMiddleware (failing validation_error) None bare initial).2
  = generic_500.
Proof. vm_compute. reflexivity. Qed.

Example unrouted :
  serve (createRouter working None) POST "/healthz" bare = None
  /\ serve (createRouter working None) GET "/" bare = None
  /\ serve (createRouter working None) OPTIONS "/healthz" bare = None.
Proof. repeat split. Qed.

Example routed_loosely :
  serve (createRouter working None) HEAD "/Healthz/" bare
  = serve (createRouter working None) GET "/healthz" bare
  /\ serve (createRouter working None) GET "/healthz//" bare = None.
Proof. split; reflexivity. Qed.

(** *** The claims at concrete inputs *)

Lemma C1_witness :
  footprint_thrown (failing validation_error) None dated = Some validation_error
  /\ name (constructor validation_error) = name EstimationRequestValidationError
  /\ exists w,
       FootprintApiMiddleware (failing validation_error) None dated initial
       = (inr tt, w)
       /\ res w = {| statusCode := 400;
                     body := Some (Text "Start date is not in a recognized format.") |}.
Proof.
  split; [reflexivity|]. split; [reflexivity|].
  apply (C1_footprint_validation_400
           (failing validation_error) None dated validation_error);
    reflexivity.
Defined.

Lemma C2_witness :
  footprint_thrown (failing_late partial_data_error) None dated_monthly
  = Some partial_data_error
  /\ name (constructor partial_data_error) = name PartialDataError
  /\ exists w,
       FootprintApiMiddleware (failing_late partial_data_error) None
         dated_monthly initial
       = (inr tt, w)
       /\ res w = {| statusCode := 416;
                     body := Some (Text "Partial Data validation failed.") |}.
Proof.
  split; [reflexivity|]. split; [reflexivity|].
  apply (C2_footprint_partial_data_416
           (failing_late partial_data_error) None dated_monthly partial_data_error);
    reflexivity.
Defined.

Lemma C3_witness :
  thrown (failing type_error) None Emissions bare = Some type_error
  /\ exists w,
       middleware (failing type_error) None Emissions bare initial = (inr tt, w)
       /\ res w = {| statusCode := 500;
                     body := Some (Text "Internal Server Error") |}.
Proof.
  split; [reflexivity|].
  apply (C3_unrecognised_500 (failing type_error) None Emissions bare type_error);
    [reflexivity | discriminate | discriminate | discriminate].
Defined.

Lemma C8_witness :
  thrown (failing impostor) None Footprint dated = Some impostor
  /\ exists w,
       middleware (failing impostor) None Footprint dated initial = (inr tt, w)
       /\ res w = {| statusCode := 400;
                     body := Some (Text "not from the validator") |}.
Proof.
  split; [reflexivity|].
  exact (proj1 (C8_discrimination_by_constructor_name
                  (failing impostor) None Footprint dated impostor eq_refl)).
Defined.

(** C8 as the spec words it fails on an error of another class that bears
    the name of the validation error: its constructor is none of the three
    classes, yet it is answered with 400 and its message. *)
Lemma C8_counterexample :
  ~ discriminates_by_identity (failing impostor) None Footprint dated.
Proof.
  intros H.
  assert (~ recognised (constructor impostor)) as Hnot
    by (intros [H1|[H1|H1]]; discriminate).
  specialize (H impostor eq_refl Hnot). vm_compute in H. discriminate.
Qed.

Lemma C9_witness :
  footprintRawRequest dated_monthly
  = Some {| startDate := Some "2021-01-01";
            endDate := Some "2021-02-01";
            ignoreCache := None;
            groupBy := Some "month";
            limit := None;
            skip := None;
            cloudProviders := None;
            accounts := None;
            services := None;
            regions := None;
            tags := None |}
  /\ exists r,
       validated_footprint
         (trace (FootprintApiMiddleware working None dated_monthly initial).2)
       = [r]
       /\ groupBy r = Some "month".
Proof.
  split; [reflexivity|].
  destruct (proj1 (C9_raw_request_validated working None dated_monthly)
              _ eq_refl) as (Hcall & _ & _ & _ & _ & Hgroup & _).
  eexists. split; [exact Hcall | exact Hgroup].
Defined.

Lemma C10_witness :
  recommendations_thrown (failing_late partial_data_error) None bare
  = Some partial_data_error
  /\ exists w,
       RecommendationsApiMiddleware (failing_late partial_data_error) None bare
         initial
       = (inr tt, w)
       /\ res w = {| statusCode := 500;
                     body := Some (Text "Internal Server Error") |}.
Proof.
  split; [reflexivity|].
  destruct (C10_recommendations_partial_data_500
              (failing_late partial_data_error) None bare partial_data_error
              eq_refl)
    as (w & Hrun & _ & Hpartial).
  exists w. split; [exact Hrun | exact (proj1 (Hpartial eq_refl))].
Defined.

(** C9 as the spec words it fails on the request without parameters: the
    validator is handed [groupBy = "day"], which the query does not hold. *)
Lemma C9_counterexample : ~ footprint_passed_verbatim working None bare.
Proof.
  intros (raw & Hraw & Hcall). vm_compute in Hraw. injection Hraw as <-.
  vm_compute in Hcall. discriminate.
Qed.

End ApiFacts.

(** ** Facts about the card's buttons *)

Module CardStateFacts.

Import Card CardState.
Local Open Scope float_scope.

Lemma after_clicks_last clicks s : after_clicks (clicks ++ [s]) = s.
Proof. unfold after_clicks. now rewrite fold_left_app. Qed.

Example clicks_gas_trees_gas : after_clicks [gas; trees; gas] = gas.
Proof. reflexivity. Qed.

Example buttons_after_trees :
  buttons (render sumCO2 (after_clicks [trees]) Sample.one_tonne)
  = (default, default, primary).
Proof. reflexivity. Qed.

(** X1. In every render exactly one button is active: the button of a unit
    is [primary] when that unit is the current selection and [default]
    otherwise. *)
Theorem one_button_active {E} (sum : list E -> float) (sel b : Selection)
  (data : list E) :
  (button (render sum sel data) b = primary <-> b = sel)
  /\ (button (render sum sel data) b = default <-> b <> sel).
Proof. destruct sel, b; cbn; split; split; (discriminate || congruence). Qed.

(** X2. After any sequence of clicks the card shows the unit clicked last:
    its icon, its two texts and, as the number, [kgSum] times that unit's
    factor; the button clicked last is the active one, and [kgSum] is the
    sum of the data whatever was clicked. *)
Theorem last_click_wins {E} (sum : list E -> float) (clicks : list Selection)
  (s : Selection) (data : list E) :
  let r := render sum (after_clicks (clicks ++ [s])) data in
  kgSum r = sum data
  /\ button r s = primary
  /\ shown r = lookup (comparisons (CarbonComparisonCard sum data)) s
  /\ total (shown r)
     = match s with
       | miles => sum data * 2.48138958
       | gas => sum data * 0.1125239
       | trees => sum data * 0.0165352
       end
  /\ testid (icon (shown r))
     = match s with
       | miles => "milesIcon"
       | gas => "gasIcon"
       | trees => "treesIcon"
       end.
Proof. cbv zeta. rewrite after_clicks_last. destruct s; repeat split. Qed.

End CardStateFacts.

(** ** Facts about what the handlers return, log and call *)

Module OutcomeFacts.

Import Api Sample Outcomes ApiFacts.
Local Open Scope string_scope.
Local Open Scope Z_scope.

Ltac outcome_cases h :=
  destruct h; cbn [middleware thrown returned readable];
  unfold footprint_returned, emissions_returned, recommendations_returned;
  [ footprint_cases | emissions_cases | recommendations_cases ].

(** What the kind of an error says about its constructor's name. *)
Lemma classify_spec e :
  match classify e with
  | FootprintValidation =>
      name (constructor e) = name EstimationRequestValidationError
  | RecommendationsValidation =>
      name (constructor e) = name RecommendationsRequestValidationError
  | PartialData => name (constructor e) = name PartialDataError
  | Unclassified =>
      name (constructor e) <> name EstimationRequestValidationError
      /\ name (constructor e) <> name RecommendationsRequestValidationError
      /\ name (constructor e) <> name PartialDataError
  end.
Proof.
  unfold classify, same_constructor_name.
  destruct (String.eqb_spec (name (constructor e))
              (name EstimationRequestValidationError)); [assumption|].
  destruct (String.eqb_spec (name (constructor e))
              (name RecommendationsRequestValidationError)); [assumption|].
  destruct (String.eqb_spec (name (constructor e)) (name PartialDataError));
    [assumption|]. auto.
Qed.

Lemma truthy_spec (o : option string) :
  truthy o = true <-> exists s, o = Some s /\ s <> "".
Proof.
  destruct o as [s|]; cbn.
  - rewrite negb_true_iff, String.eqb_neq. split.
    + intros H. eauto.
    + intros (s' & [= <-] & H). exact H.
  - split; [discriminate | intros (s & [=] & _)].
Qed.

Lemma toString_strings (l : list string) :
  toString (QArray (QString <$> l)) = Some (String.concat "," l).
Proof.
  cbn [toString].
  assert (mapM toString (QString <$> l) = Some l) as ->; [|reflexivity].
  induction l as [|s l IH]; [reflexivity|].
  cbn. cbn in IH. now rewrite IH.
Qed.

Lemma handles_method_get {B C D} p (h : Request -> @M B C D unit) m :
  handles_method (router_get p h) m = true <-> m = GET \/ m = HEAD.
Proof. destruct m; cbn; intuition discriminate. Qed.

Lemma path_matches_spec registered p :
  path_matches registered p = true
  <-> lowercase p = lowercase registered
      \/ lowercase p = lowercase registered +:+ "/".
Proof. unfold path_matches. now rewrite orb_true_iff, !String.eqb_eq. Qed.

Section Outcome.

Context {CCFConfig EstimationRequest RecommendationsRequest Payload : Type}.
Variable ext : @External CCFConfig EstimationRequest RecommendationsRequest Payload.
Variable config : option CCFConfig.

#[local] Abbreviation run h req := (middleware ext config h req initial).

(** The response a run leaves: that of the caught error, the returned value
    as JSON, or nothing when the handler did not get to its [try] block. *)
Lemma run_response h req :
  res (run h req).2
  = match thrown ext config h req, returned ext config h req with
    | Some e, _ => error_response h e
    | None, Some j => {| statusCode := 200; body := Some (Json j) |}
    | None, None => {| statusCode := 200; body := None |}
    end.
Proof. outcome_cases h; reflexivity. Qed.

(** X3. When a string parameter a handler reads cannot be read - its
    [toString()] throws - the handler's promise is rejected with a
    [TypeError] before anything is logged, called or sent: the response is
    untouched. The emissions handler reads no parameter, so this never
    happens to it. *)
Theorem unreadable_parameter_rejects (h : Endpoint) (req : Request) :
  readable h req = false ->
  h <> Emissions
  /\ exists e w,
       run h req = (inl e, w)
       /\ name (constructor e) = "TypeError"
       /\ trace w = []
       /\ res w = {| statusCode := 200; body := None |}.
Proof.
  outcome_cases h; try discriminate; intros _;
    (split; [discriminate | do 2 eexists; repeat split]).
Qed.

(** X4. The status of the response a handler leaves is one of 200, 400, 416
    and 500. A 416 comes only from the footprint handler, for a caught error
    named as [PartialDataError]; a 400 only from the footprint handler for
    its validation error or from the recommendations handler for its own;
    under both the body is the caught error's message. A 500 always carries
    the fixed text. The emissions handler thus never answers 400 or 416. *)
Theorem status_tells_kind (h : Endpoint) (req : Request) :
  let r := res (run h req).2 in
  In (statusCode r) [200; 400; 416; 500]
  /\ (statusCode r = 416 ->
      h = Footprint
      /\ exists e, thrown ext config h req = Some e
                   /\ name (constructor e) = name PartialDataError
                   /\ body r = Some (Text (message e)))
  /\ (statusCode r = 400 ->
      exists e, thrown ext config h req = Some e
                /\ body r = Some (Text (message e))
                /\ (h = Footprint
                    /\ name (constructor e)
                       = name EstimationRequestValidationError
                    \/ h = Recommendations
                       /\ name (constructor e)
                          = name RecommendationsRequestValidationError))
  /\ (statusCode r = 500 -> body r = Some (Text "Internal Server Error")).
Proof.
  cbv zeta. rewrite run_response.
  destruct (thrown ext config h req) as [e|].
  - pose proof (classify_spec e) as Hk. unfold error_response.
    destruct h, (classify e); cbn;
      repeat split; try discriminate; try tauto; eauto 8.
  - destruct (returned ext config h req); cbn;
      repeat split; try discriminate; try tauto.
Qed.

(** X5. The footprint handler sets the socket's idle timeout to ten minutes
    on every path, errors included; the other two handlers leave the socket
    alone. *)
Theorem socket_timeout_ten_minutes (h : Endpoint) (req : Request) :
  socket_timeout (run h req).2
  = match h with
    | Footprint => Some (10 * 60 * 1000)
    | Emissions | Recommendations => None
    end.
Proof. outcome_cases h; reflexivity. Qed.

(** X6. The application is asked for estimates or recommendations only with
    a request the validator returned for this very query: when the validator
    throws, the method of [App] is not called at all. *)
Theorem app_called_only_with_validated (req : Request) :
  (forall r,
     In (Called_getCostAndEstimates r)
        (trace (FootprintApiMiddleware ext config req initial).2) ->
     exists raw,
       footprintValidatedRequest req = Some raw
       /\ createValidFootprintRequest ext raw = inr r)
  /\ (forall r,
        In (Called_getRecommendations r)
           (trace (RecommendationsApiMiddleware ext config req initial).2) ->
        exists raw,
          recommendationsRawRequest req = Some raw
          /\ createValidRecommendationsRequest ext raw = inr r).
Proof.
  split; intros r0.
  - footprint_cases; cbn; intros H; decompose [or] H;
      try contradiction; simplify_eq; eauto.
  - recommendations_cases; cbn; intros H; decompose [or] H;
      try contradiction; simplify_eq; eauto.
Qed.

(** X7. The footprint handler logs one kind of warning only, the one about
    [groupBy], and logs it exactly when the parameters can be read and the
    [groupBy] read is absent or the empty string. *)
Theorem warning_iff_groupBy_falsy (req : Request) (msg : string)
  (err : option JsError) :
  In (Logged warn msg err)
     (trace (FootprintApiMiddleware ext config req initial).2)
  <-> msg = groupBy_warning /\ err = None
      /\ exists raw, footprintRawRequest req = Some raw
                     /\ truthy (groupBy raw) = false.
Proof.
  footprint_cases; cbn; split;
    solve [ intros H; decompose [or] H; try contradiction; simplify_eq; eauto
          | intros (-> & -> & raw' & Hraw' & Hf); simplify_eq;
            solve [ auto | congruence ] ].
Qed.

(** X8. Whatever the query, the validator of the footprint handler never
    receives a raw request whose [groupBy] is missing or empty. *)
Theorem validated_groupBy_never_empty (req : Request)
  (raw : FootprintEstimatesRawRequest) :
  In raw (validated_footprint
            (trace (FootprintApiMiddleware ext config req initial).2)) ->
  exists s, groupBy raw = Some s /\ s <> "".
Proof.
  footprint_cases; cbn; intros H; decompose [or] H; try contradiction; subst;
    solve [ now apply truthy_spec
          | cbn; eexists; split; [reflexivity | discriminate] ].
Qed.

(** X9. A handler logs an error exactly when its [try] block threw it: the
    thrown error is logged, and nothing else is ever logged as an error. *)
Theorem error_logged_iff_thrown (h : Endpoint) (req : Request) (e : JsError) :
  (exists msg, In (Logged error msg (Some e)) (trace (run h req).2))
  <-> thrown ext config h req = Some e.
Proof.
  split.
  - intros [msg H]. exact (middleware_logged_thrown ext config h req e msg H).
  - apply middleware_thrown_logged.
Qed.

(** X10. The router runs a handler for a request exactly when the method is
    GET or HEAD and the path is, letter case and one trailing slash apart,
    one of the four registered paths; no handler runs for any other method
    or path. *)
Theorem routes_served (m : Method) (p : string) :
  is_Some (dispatch (createRouter ext config) m p)
  <-> (m = GET \/ m = HEAD)
      /\ exists r, In r routed_paths
                   /\ (lowercase p = r \/ lowercase p = r +:+ "/").
Proof.
  unfold dispatch. rewrite fmap_is_Some. split.
  - intros [r Hr]. apply List.find_some in Hr as [Hin Hm].
    unfold matches in Hm. apply andb_true_iff in Hm as [Hmeth Hpath].
    apply path_matches_spec in Hpath.
    cbn in Hin.
    destruct Hin as [<-|[<-|[<-|[<-|[]]]]];
      (split; [now apply handles_method_get in Hmeth|]);
      eexists; (split; [|exact Hpath]); cbn; auto 10.
  - intros [Hmeth (r & Hin & Hpath)].
    destruct (List.find (matches m p) (createRouter ext config)) eqn:Hfind;
      [eauto|exfalso].
    assert (forall r' : @Route EstimationRequest RecommendationsRequest Payload,
              In r' (createRouter ext config) ->
              handles_method r' m = true ->
              path_matches (path r') p = true -> False) as Hno.
    { intros r' Hin' H1 H2.
      pose proof (List.find_none _ _ Hfind r' Hin') as Hf.
      unfold matches in Hf. rewrite H1, H2 in Hf. discriminate. }
    cbn in Hin.
    destruct Hin as [<-|[<-|[<-|[<-|[]]]]].
    + apply (Hno (router_get "/footprint" (FootprintApiMiddleware ext config)));
        [cbn; auto | now apply handles_method_get | now apply path_matches_spec].
    + apply (Hno (router_get "/regions/emissions-factors"
                    (EmissionsApiMiddleware ext config)));
        [cbn; auto | now apply handles_method_get | now apply path_matches_spec].
    + apply (Hno (router_get "/recommendations"
                    (RecommendationsApiMiddleware ext config)));
        [cbn; auto | now apply handles_method_get | now apply path_matches_spec].
    + apply (Hno (router_get "/healthz" healthz));
        [cbn; auto 10 | now apply handles_method_get
        | now apply path_matches_spec].
Qed.

(** The footprint handler reads its request through the raw request only. *)
Lemma footprint_run_raw req1 req2 :
  footprintRawRequest req1 = footprintRawRequest req2 ->
  FootprintApiMiddleware ext config req1 initial
  = FootprintApiMiddleware ext config req2 initial.
Proof. unfold FootprintApiMiddleware. now intros ->. Qed.

(** X11. A handler reads the parameters it names and no other: two requests
    that agree on them get the same run - the same response, log and calls.
    The emissions handler names none, so it does the same for every
    request. *)
Theorem only_named_params_matter (h : Endpoint) (req1 req2 : Request) :
  (forall k, In k (params h) -> query req1 !! k = query req2 !! k) ->
  run h req1 = run h req2.
Proof.
  intros H. destruct h; cbn [middleware params] in *.
  - apply footprint_run_raw. unfold footprintRawRequest.
    rewrite !H by (cbn; auto 20). reflexivity.
  - reflexivity.
  - unfold RecommendationsApiMiddleware, recommendationsRawRequest.
    rewrite !H by (cbn; auto). reflexivity.
Qed.

(** X12. A string parameter given several times reaches the raw request as
    its values joined by commas, and given as a one-element array it is
    handled exactly as the plain string: for each of the six string
    parameters of the footprint handler the two runs are the same. *)
Theorem repeated_string_param (k : string) (q : gmap string QueryValue)
  (l : list string) (s : string) :
  In k footprint_string_params ->
  toString_opt (<[k := QArray (QString <$> l)]> q !! k)
  = Some (Some (String.concat "," l))
  /\ FootprintApiMiddleware ext config
       {| query := <[k := QArray [QString s]]> q |} initial
     = FootprintApiMiddleware ext config
         {| query := <[k := QString s]> q |} initial.
Proof.
  intros Hk. split.
  - rewrite lookup_insert_eq. unfold toString_opt.
    now rewrite toString_strings.
  - apply footprint_run_raw. unfold footprintRawRequest. cbn [query].
    cbn in Hk.
    destruct Hk as [<-|[<-|[<-|[<-|[<-|[<-|[]]]]]]];
      repeat (rewrite lookup_insert_eq || rewrite lookup_insert_ne by discriminate);
      reflexivity.
Qed.

(** X13. A [groupBy] that reads as the empty string - given empty, or as an
    array of one empty string - is handled exactly as a missing one: same
    warning, same raw request with ["day"], same response. *)
Theorem empty_groupBy_as_absent (q : gmap string QueryValue) (v : QueryValue) :
  toString v = Some "" ->
  FootprintApiMiddleware ext config {| query := <["groupBy" := v]> q |} initial
  = FootprintApiMiddleware ext config {| query := delete "groupBy" q |} initial.
Proof.
  intros Hv. unfold FootprintApiMiddleware, footprintRawRequest.
  cbn [query].
  rewrite lookup_insert_eq, lookup_delete_eq.
  rewrite !lookup_insert_ne, !lookup_delete_ne by discriminate.
  change (toString_opt (Some v)) with (Some <$> toString v). rewrite Hv.
  change (toString_opt None) with (Some (@None string)).
  destruct (toString_opt (q !! "start")) as [a1|]; [|reflexivity].
  destruct (toString_opt (q !! "end")) as [a2|]; [|reflexivity].
  destruct (toString_opt (q !! "ignoreCache")) as [a3|]; [|reflexivity].
  destruct (toString_opt (q !! "limit")) as [a5|]; [|reflexivity].
  destruct (toString_opt (q !! "skip")) as [a6|]; reflexivity.
Qed.

(** X14. No handler retries and none calls into another's part of the
    application: when its parameters can be read, the footprint handler
    calls its validator once and then, if the validator returned,
    [getCostAndEstimates] once, and the recommendations handler does the
    same with its own pair; when they cannot be read, neither calls
    anything. The emissions handler calls [getEmissionsFactors] once. *)
Theorem calls_made (h : Endpoint) (req : Request) :
  calls (trace (run h req).2)
  = match h with
    | Footprint =>
        match footprintValidatedRequest req with
        | None => []
        | Some raw =>
            Called_createValidFootprintRequest raw
            :: match createValidFootprintRequest ext raw with
               | inl _ => []
               | inr r => [Called_getCostAndEstimates r]
               end
        end
    | Emissions => [Called_getEmissionsFactors]
    | Recommendations =>
        match recommendationsRawRequest req with
        | None => []
        | Some raw =>
            Called_createValidRecommendationsRequest raw
            :: match createValidRecommendationsRequest ext raw with
               | inl _ => []
               | inr r => [Called_getRecommendations r]
               end
        end
    end.
Proof. outcome_cases h; reflexivity. Qed.

(** X15. When the query has no [groupBy] and the string parameters can be
    read, the footprint handler logs its warning and then calls the
    validator with the raw request in which [groupBy] is ["day"] and every
    other field is as extracted; apart from the warning, the run is the run
    of the same request with [groupBy=day] given: same outcome, same
    response, same timeout, same calls. *)
Theorem groupBy_default_when_readable (req : Request)
  (raw : FootprintEstimatesRawRequest) :
  query req !! "groupBy" = None ->
  footprintRawRequest req = Some raw ->
  let defaulted := set_groupBy "day" raw in
  exists out w rest,
    FootprintApiMiddleware ext config req initial = (out, w)
    /\ trace w = Logged info "Footprint API request started." None
                 :: Logged warn groupBy_warning None
                 :: Called_createValidFootprintRequest defaulted :: rest
    /\ groupBy defaulted = Some "day"
    /\ (startDate defaulted, endDate defaulted, ignoreCache defaulted,
        limit defaulted, skip defaulted)
       = (startDate raw, endDate raw, ignoreCache raw, limit raw, skip raw)
    /\ (cloudProviders defaulted, accounts defaulted, services defaulted,
        regions defaulted, tags defaulted)
       = (cloudProviders raw, accounts raw, services raw, regions raw, tags raw)
    /\ FootprintApiMiddleware ext config
         {| query := <["groupBy" := QString "day"]> (query req) |} initial
       = (out, {| socket_timeout := socket_timeout w;
                  res := res w;
                  trace := Logged info "Footprint API request started." None
                           :: Called_createValidFootprintRequest defaulted
                           :: rest |}).
Proof.
  intros Habsent Hraw defaulted.
  pose proof (footprintRawRequest_Some req raw Hraw)
    as (H1 & H2 & H3 & H4 & H5 & H6 & H7 & H8 & H9 & H10 & H11).
  assert (groupBy raw = None) as Hnone.
  { rewrite Habsent in H4. cbn in H4. now injection H4 as <-. }
  assert (footprintRawRequest
            {| query := <["groupBy" := QString "day"]> (query req) |}
          = Some defaulted) as Hsame.
  { unfold footprintRawRequest. cbn [query].
    rewrite lookup_insert_eq.
    rewrite !lookup_insert_ne by discriminate.
    rewrite H1, H2, H3, H5, H6. cbn.
    unfold defaulted, set_groupBy. now rewrite H7, H8, H9, H10, H11. }
  unfold FootprintApiMiddleware. rewrite Hsame, Hraw. run_monad.
  rewrite Hnone. change (truthy (groupBy defaulted)) with true.
  cbn [truthy negb]. run_monad. fold defaulted.
  destruct (createValidFootprintRequest ext defaulted) as [e1|r].
  - rewrite !footprint_catch_spec. do 3 eexists. repeat split.
  - destruct (getCostAndEstimates ext config r) as [e2|j].
    + rewrite !footprint_catch_spec. do 3 eexists. repeat split.
    + do 3 eexists. repeat split.
Qed.

End Outcome.

(** *** The properties at concrete inputs *)

Lemma unreadable_parameter_rejects_witness :
  readable Footprint start_shadowed = false
  /\ exists e w,
       middleware working None Footprint start_shadowed initial = (inl e, w)
       /\ name (constructor e) = "TypeError"
       /\ trace w = []
       /\ res w = {| statusCode := 200; body := None |}.
Proof.
  split; [reflexivity|].
  exact (proj2 (unreadable_parameter_rejects working None Footprint
                  start_shadowed eq_refl)).
Defined.

Lemma app_called_only_with_validated_witness :
  In (Called_getCostAndEstimates tt)
     (trace (FootprintApiMiddleware working None dated initial).2)
  /\ exists raw,
       footprintValidatedRequest dated = Some raw
       /\ createValidFootprintRequest working raw = inr tt.
Proof.
  assert (In (@Called_getCostAndEstimates unit unit tt)
             (trace (FootprintApiMiddleware working None dated initial).2)) as H
    by (vm_compute; auto 10).
  split; [exact H|].
  exact (proj1 (app_called_only_with_validated working None dated) tt H).
Defined.

Lemma validated_groupBy_never_empty_witness :
  exists raw,
    In raw (validated_footprint
              (trace (FootprintApiMiddleware working None bare initial).2))
    /\ exists s, groupBy raw = Some s /\ s <> "".
Proof.
  eexists.
  assert (In _ (validated_footprint
                  (trace (FootprintApiMiddleware working None bare initial).2)))
    as H by (left; reflexivity).
  split; [exact H|].
  exact (validated_groupBy_never_empty working None bare _ H).
Defined.

Lemma only_named_params_matter_witness :
  middleware (failing recommendations_error) None Recommendations bare initial
  = middleware (failing recommendations_error) None Recommendations dated initial.
Proof.
  apply (only_named_params_matter
           (failing recommendations_error) None Recommendations bare dated).
  intros k [<-|[]]. reflexivity.
Defined.

Lemma repeated_string_param_witness :
  toString_opt
    (<["start" := QArray (QString <$> ["2021-01-01"; "2021-02-01"])]>
       (query dated) !! "start")
  = Some (Some (String.concat "," ["2021-01-01"; "2021-02-01"]))
  /\ FootprintApiMiddleware working None
       {| query := <["start" := QArray [QString "2021-01-01"]]> (query dated) |}
       initial
     = FootprintApiMiddleware working None
         {| query := <["start" := QString "2021-01-01"]> (query dated) |}
         initial.
Proof.
  apply (repeated_string_param working None "start" (query dated)).
  left. reflexivity.
Defined.

Lemma empty_groupBy_as_absent_witness :
  toString (QArray [QString ""]) = Some ""
  /\ FootprintApiMiddleware working None
       {| query := <["groupBy" := QArray [QString ""]]> (query dated) |} initial
     = FootprintApiMiddleware working None
         {| query := delete "groupBy" (query dated) |} initial.
Proof.
  split; [reflexivity|].
  apply (empty_groupBy_as_absent working None (query dated)). reflexivity.
Defined.

Lemma groupBy_default_when_readable_witness :
  query dated !! "groupBy" = None
  /\ exists raw out w rest,
       footprintRawRequest dated = Some raw
       /\ FootprintApiMiddleware working None dated initial = (out, w)
       /\ trace w = Logged info "Footprint API request started." None
                    :: Logged warn groupBy_warning None
                    :: Called_createValidFootprintRequest
                         (set_groupBy "day" raw)
                    :: rest.
Proof.
  split; [reflexivity|].
  destruct (groupBy_default_when_readable working None dated _ eq_refl eq_refl)
    as (out & w & rest & Hrun & Htrace & _).
  eexists. exists out, w, rest.
  split; [reflexivity|]. split; [exact Hrun | exact Htrace].
Defined.

End OutcomeFacts.
